(** * The alouette_tts Linux plugin: method dispatcher

    A shallow embedding of [linux/alouette_lib_tts_plugin.cc].  The plugin
    answers three method calls on the channel [alouette_tts] by asking the
    operating system (a [system] probe, a [uname] query) and replies with
    "not implemented" to every other name.

    The C library and the Flutter embedder are external to the plugin; the
    parts the dispatcher uses are modelled first (C strings, [strcmp], the
    [%s] directive of [g_strdup_printf], [FlValue], the method responses),
    then the operating system as a record of oracles, then the dispatcher
    itself, line by line, in a small state monad that records every call to
    the operating system and every response handed to the channel. *)

From Stdlib Require Import ZArith List String Ascii Bool Lia Permutation.
Import ListNotations.
Open Scope string_scope.
Open Scope Z_scope.

(** ** C strings *)

Module CString.

(** The value of a byte, as an [unsigned char]. *)
Definition uchar (c : ascii) : Z := Z.of_N (N_of_ascii c).

(** A [char] buffer is modelled by a [string]; the C string it holds ends
    at the first NUL byte, or at the end of the modelled buffer. *)
Fixpoint c_str (buf : string) : string :=
  match buf with
  | EmptyString => EmptyString
  | String c rest => if uchar c =? 0 then EmptyString else String c (c_str rest)
  end.

(** A buffer of [n] NUL bytes, as left by [= {}]. *)
Fixpoint zero_buf (n : nat) : string :=
  match n with
  | O => EmptyString
  | S n' => String zero (zero_buf n')
  end.

(** [strcmp]: the difference of the first two bytes that differ, read as
    [unsigned char]; the comparison stops at the terminator. *)
Fixpoint strcmp (s1 s2 : string) : Z :=
  match s1, s2 with
  | EmptyString, EmptyString => 0
  | EmptyString, String c2 _ => 0 - uchar c2
  | String c1 _, EmptyString => uchar c1 - 0
  | String c1 r1, String c2 r2 =>
      if uchar c1 =? uchar c2
      then (if uchar c1 =? 0 then 0 else strcmp r1 r2)
      else uchar c1 - uchar c2
  end.

(** [g_strdup_printf] restricted to the directives [%s] and [%%]: each
    [%s] takes the next argument and prints the C string it holds.  A
    [%s] without an argument prints nothing (the source never does
    that). *)
Fixpoint g_strdup_printf (format : string) (args : list string) : string :=
  match format with
  | EmptyString => EmptyString
  | String "%" (String "s" rest) =>
      match args with
      | a :: args' => c_str a ++ g_strdup_printf rest args'
      | [] => g_strdup_printf rest []
      end
  | String "%" (String "%" rest) => String "%" (g_strdup_printf rest args)
  | String c rest => String c (g_strdup_printf rest args)
  end.

End CString.
Import CString.

(** ** Flutter values and method responses *)

Inductive FlValueType : Type :=
| FL_VALUE_TYPE_NULL
| FL_VALUE_TYPE_BOOL
| FL_VALUE_TYPE_INT
| FL_VALUE_TYPE_STRING
| FL_VALUE_TYPE_LIST
| FL_VALUE_TYPE_MAP.

Set Warnings "-register-all".

(** The values of the standard codec the plugin can meet (floats and the
    typed number lists are left out: the dispatcher neither builds nor
    reads them). *)
Inductive FlValue : Type :=
| FlNull
| FlBool (b : bool)
| FlInt (i : Z)
| FlString (s : string)
| FlList (elements : list FlValue)
| FlMap (entries : list (FlValue * FlValue)).

Definition fl_value_get_type (v : FlValue) : FlValueType :=
  match v with
  | FlNull => FL_VALUE_TYPE_NULL
  | FlBool _ => FL_VALUE_TYPE_BOOL
  | FlInt _ => FL_VALUE_TYPE_INT
  | FlString _ => FL_VALUE_TYPE_STRING
  | FlList _ => FL_VALUE_TYPE_LIST
  | FlMap _ => FL_VALUE_TYPE_MAP
  end.

Definition fl_value_new_bool (value : bool) : FlValue := FlBool value.

(** [fl_value_new_string] copies the C string its argument points to. *)
Definition fl_value_new_string (value : string) : FlValue := FlString (c_str value).

Definition fl_value_new_list : FlValue := FlList [].

(** [fl_value_append] adds at the end of a list value and leaves any other
    value alone (the embedder's [g_return_if_fail]). *)
Definition fl_value_append (self value : FlValue) : FlValue :=
  match self with
  | FlList elements => FlList (elements ++ [value])
  | _ => self
  end.

Definition is_fl_string (v : FlValue) : bool :=
  match v with
  | FlString _ => true
  | _ => false
  end.

(** A list value all of whose elements are strings. *)
Definition is_fl_string_list (v : FlValue) : bool :=
  match v with
  | FlList elements => forallb is_fl_string elements
  | _ => false
  end.

Inductive FlMethodResponse : Type :=
| FlMethodSuccessResponse (result : FlValue)
| FlMethodErrorResponse (code message : string) (details : FlValue)
| FlMethodNotImplementedResponse.

Definition fl_method_success_response_new (result : FlValue) : FlMethodResponse :=
  FlMethodSuccessResponse result.

Definition fl_method_not_implemented_response_new : FlMethodResponse :=
  FlMethodNotImplementedResponse.

(** A method call as the channel delivers it: the buffer holding the name
    and the argument payload. *)
Record FlMethodCall : Type := mkFlMethodCall {
  call_name : string;
  call_args : FlValue
}.

(** [fl_method_call_get_name] returns a [const gchar*]: the C string held
    by the name buffer. *)
Definition fl_method_call_get_name (method_call : FlMethodCall) : string :=
  c_str (call_name method_call).

(** ** The operating system *)

(** [struct utsname]: five [char] arrays. *)
Record utsname : Type := mkUtsname {
  sysname : string;
  nodename : string;
  release : string;
  version : string;
  machine : string
}.

(** The length of each array of [struct utsname] on Linux. *)
Definition _UTSNAME_LENGTH : nat := 65.

(** [struct utsname uname_data = {};] *)
Definition utsname_zero : utsname :=
  let z := zero_buf _UTSNAME_LENGTH in mkUtsname z z z z z.

(** An operating-system environment, held fixed: what [system] returns for
    a command line, and what [uname] returns and leaves in the buffer it
    was given. *)
Record OS : Type := mkOS {
  os_system : string -> Z;
  os_uname : utsname -> Z * utsname
}.

Inductive OSCall : Type :=
| CallSystem (command : string)
| CallUname.

(** ** The plugin object and the dispatcher's monad *)

(** [GObject] carries nothing the plugin reads. *)
Record GObject : Type := mkGObject { ref_count : Z }.

Record AlouetteLibTtsPlugin : Type := mkAlouetteLibTtsPlugin {
  parent_instance : GObject
}.

(** What a run of the plugin leaves behind: the calls made to the operating
    system and the responses handed to the channel, oldest first. *)
Record World : Type := mkWorld {
  os_calls : list OSCall;
  responded : list (FlMethodCall * FlMethodResponse)
}.

Definition world0 : World := mkWorld [] [].

Definition M (A : Type) : Type := World -> A * World.

Definition ret {A : Type} (a : A) : M A := fun w => (a, w).

Definition bind {A B : Type} (m : M A) (k : A -> M B) : M B :=
  fun w => let (a, w') := m w in k a w'.

Declare Scope plugin_scope.
Delimit Scope plugin_scope with plugin.
Notation "x <- m ;; k" := (bind m (fun x => k))
  (at level 61, m at next level, right associativity) : plugin_scope.
Notation "m ;;; k" := (bind m (fun _ => k))
  (at level 61, right associativity) : plugin_scope.

Section Dispatcher.

Variable os : OS.

Definition system (command : string) : M Z :=
  fun w => (os_system os command,
            mkWorld (os_calls w ++ [CallSystem command]) (responded w)).

Definition uname (buf : utsname) : M (Z * utsname) :=
  fun w => (os_uname os buf,
            mkWorld (os_calls w ++ [CallUname]) (responded w)).

(** [fl_method_call_respond]: hands the response to the channel. *)
Definition fl_method_call_respond (method_call : FlMethodCall)
    (response : FlMethodResponse) : M bool :=
  fun w => (true,
            mkWorld (os_calls w) (responded w ++ [(method_call, response)])).

(** The body of [alouette_lib_tts_plugin_handle_method_call] up to the
    point where [response] is set. *)
Definition build_response (self : AlouetteLibTtsPlugin)
    (method_call : FlMethodCall) : M FlMethodResponse :=
  (let method := fl_method_call_get_name method_call in
   if strcmp method "isEdgeTTSAvailable" =? 0 then
     exit_status <- system "which edge-tts > /dev/null 2>&1" ;;
     let result := fl_value_new_bool (exit_status =? 0) in
     ret (fl_method_success_response_new result)
   else if strcmp method "getAvailableTTSEngines" =? 0 then
     let result := fl_value_new_list in
     status <- system "which edge-tts > /dev/null 2>&1" ;;
     let result :=
       if status =? 0
       then fl_value_append result (fl_value_new_string "edge-tts")
       else result in
     ret (fl_method_success_response_new result)
   else if strcmp method "getPlatformVersion" =? 0 then
     let uname_data := utsname_zero in
     r <- uname uname_data ;;
     let uname_data := snd r in
     let version := g_strdup_printf "Linux %s" [release uname_data] in
     let result := fl_value_new_string version in
     ret (fl_method_success_response_new result)
   else
     ret fl_method_not_implemented_response_new)%plugin.

Definition alouette_lib_tts_plugin_handle_method_call
    (self : AlouetteLibTtsPlugin) (method_call : FlMethodCall) : M unit :=
  (response <- build_response self method_call ;;
   fl_method_call_respond method_call response ;;;
   ret tt)%plugin.

(** [method_call_cb]: the channel's callback; [user_data] is the plugin. *)
Definition method_call_cb (method_call : FlMethodCall)
    (user_data : AlouetteLibTtsPlugin) : M unit :=
  let plugin := user_data in
  alouette_lib_tts_plugin_handle_method_call plugin method_call.

(** The channel delivering a sequence of calls, one after the other. *)
Fixpoint deliver (plugin : AlouetteLibTtsPlugin)
    (calls : list FlMethodCall) : M unit :=
  match calls with
  | [] => ret tt
  | method_call :: rest =>
      (method_call_cb method_call plugin ;;; deliver plugin rest)%plugin
  end.

End Dispatcher.

(** The command line of the availability probe for [edge-tts]. *)
Definition edge_tts_probe : string := "which edge-tts > /dev/null 2>&1".

(** The world a single call leaves behind. *)
Definition handle (os : OS) (self : AlouetteLibTtsPlugin)
    (method_call : FlMethodCall) (w : World) : World :=
  snd (alouette_lib_tts_plugin_handle_method_call os self method_call w).

(** The response a call gets when it is the only call ever made, on a
    plugin just created. *)
Definition response_alone (os : OS) (method_call : FlMethodCall) : FlMethodResponse :=
  fst (build_response os (mkAlouetteLibTtsPlugin (mkGObject 1)) method_call world0).

(** ** Sample environments and calls *)

Definition plugin0 : AlouetteLibTtsPlugin := mkAlouetteLibTtsPlugin (mkGObject 1).

(** A field of [struct utsname] holding [s], padded with NUL bytes. *)
Definition utsname_field (s : string) : string :=
  s ++ zero_buf (_UTSNAME_LENGTH - String.length s).

Definition utsname_linux : utsname :=
  mkUtsname (utsname_field "Linux") (utsname_field "host")
            (utsname_field "6.8.0-45-generic")
            (utsname_field "#45-Ubuntu SMP") (utsname_field "x86_64").

Definition utsname_freebsd : utsname :=
  mkUtsname (utsname_field "FreeBSD") (utsname_field "host")
            (utsname_field "14.1-RELEASE")
            (utsname_field "FreeBSD 14.1-RELEASE") (utsname_field "amd64").

(** [edge-tts] is on the search path: the probe's shell exits with 0. *)
Definition os_with_edge_tts : OS :=
  mkOS (fun command => if String.eqb command edge_tts_probe then 0 else 32512)
       (fun _ => (0, utsname_linux)).

(** [edge-tts] is absent: [which] exits with 1, the wait status is 256. *)
Definition os_without_edge_tts : OS :=
  mkOS (fun _ => 256) (fun _ => (0, utsname_linux)).

(** No child process can be created ([system] returns -1), and [uname]
    fails without writing to its buffer. *)
Definition os_failing : OS :=
  mkOS (fun _ => -1) (fun buf => (-1, buf)).

(** A kernel that does not call itself Linux. *)
Definition os_freebsd : OS :=
  mkOS (fun _ => 256) (fun _ => (0, utsname_freebsd)).

Definition call_isEdgeTTSAvailable : FlMethodCall :=
  mkFlMethodCall "isEdgeTTSAvailable" FlNull.

Definition call_getAvailableTTSEngines : FlMethodCall :=
  mkFlMethodCall "getAvailableTTSEngines" FlNull.

(** The same call with an argument payload. *)
Definition call_getAvailableTTSEngines_args : FlMethodCall :=
  mkFlMethodCall "getAvailableTTSEngines"
    (FlMap [(FlString "locale", FlString "fr-FR")]).

(** [uname] reports success and leaves the buffer as it was. *)
Definition os_uname_unchecked : OS :=
  mkOS (fun _ => -1) (fun buf => (0, buf)).

Definition call_getPlatformVersion : FlMethodCall :=
  mkFlMethodCall "getPlatformVersion" FlNull.

Definition call_bogus : FlMethodCall :=
  mkFlMethodCall "bogus" (FlList [FlInt 1; FlString "x"]).

(** The version string as the specification words it: the kernel name and
    the release that the query reported, a space between them. *)
Definition reported_platform_version (os : OS) : string :=
  let uname_data := snd (os_uname os utsname_zero) in
  c_str (sysname uname_data) ++ " " ++ c_str (release uname_data).

(** ** Reading a run *)

(** The two names answered by the [which edge-tts] probe. *)
Definition probe_methods : list string :=
  ["isEdgeTTSAvailable"; "getAvailableTTSEngines"].

(** The three names the dispatcher tests for, in the order of its tests. *)
Definition recognised_methods : list string :=
  ["isEdgeTTSAvailable"; "getAvailableTTSEngines"; "getPlatformVersion"].

(** The call's name is one of [names]. *)
Definition named (names : list string) (method_call : FlMethodCall) : bool :=
  existsb (String.eqb (fl_method_call_get_name method_call)) names.

(** The calls to the operating system in the branch a call takes: one
    [system] in the first two branches, one [uname] in the third, none in
    the last. *)
Definition footprint (method_call : FlMethodCall) : list OSCall :=
  if named probe_methods method_call then [CallSystem edge_tts_probe]
  else if named ["getPlatformVersion"] method_call then [CallUname]
  else [].

Definition is_system_call (c : OSCall) : bool :=
  match c with
  | CallSystem _ => true
  | CallUname => false
  end.

Definition is_uname_call (c : OSCall) : bool :=
  match c with
  | CallSystem _ => false
  | CallUname => true
  end.

(** Another host without [edge-tts]: no child process can be created,
    [uname] reports a failure, and only the release agrees with
    [utsname_linux], up to its terminator. *)
Definition os_other_host : OS :=
  mkOS (fun _ => -1)
       (fun _ => (-1, mkUtsname "GNU" "elsewhere"
                        ("6.8.0-45-generic" ++ String zero "stale bytes")
                        "" "riscv64")).

(** ** Facts about C strings *)

Lemma uchar_zero_iff (c : ascii) : uchar c = 0 <-> c = zero.
Proof.
  unfold uchar. split.
  - intros H. rewrite <- (ascii_N_embedding c).
    replace (N_of_ascii c) with 0%N by lia. reflexivity.
  - intros ->. reflexivity.
Qed.

Lemma uchar_inj (c1 c2 : ascii) : uchar c1 = uchar c2 -> c1 = c2.
Proof.
  unfold uchar. intros H.
  rewrite <- (ascii_N_embedding c1), <- (ascii_N_embedding c2).
  f_equal. lia.
Qed.

Lemma c_str_idempotent (buf : string) : c_str (c_str buf) = c_str buf.
Proof.
  induction buf as [|c rest IH]; simpl; [reflexivity|].
  destruct (uchar c =? 0) eqn:E; simpl; [reflexivity|].
  rewrite E, IH. reflexivity.
Qed.

Lemma c_str_zero_buf (n : nat) : c_str (zero_buf n) = "".
Proof. destruct n; reflexivity. Qed.

Lemma c_str_app (s t : string) :
  c_str s = s -> c_str (s ++ t) = s ++ c_str t.
Proof.
  induction s as [|c rest IH]; simpl; [reflexivity|].
  destruct (uchar c =? 0); [discriminate|].
  intros H. injection H as H. rewrite (IH H). reflexivity.
Qed.

Lemma append_empty_r (s : string) : s ++ "" = s.
Proof. induction s as [|c rest IH]; simpl; [|rewrite IH]; reflexivity. Qed.

(** [strcmp] returns 0 exactly on buffers that hold the same C string. *)
Lemma strcmp_zero_iff (s1 s2 : string) :
  strcmp s1 s2 = 0 <-> c_str s1 = c_str s2.
Proof.
  revert s2. induction s1 as [|c1 r1 IH]; intros [|c2 r2]; simpl.
  - tauto.
  - destruct (Z.eqb_spec (uchar c2) 0) as [E|E]; split;
      try reflexivity; try discriminate; lia.
  - destruct (Z.eqb_spec (uchar c1) 0) as [E|E]; split;
      try reflexivity; try discriminate; lia.
  - destruct (Z.eqb_spec (uchar c1) (uchar c2)) as [E|E].
    + rewrite <- E. destruct (Z.eqb_spec (uchar c1) 0) as [E0|E0].
      * tauto.
      * apply uchar_inj in E. subst c2. rewrite IH. split.
        -- intros ->. reflexivity.
        -- intros H. injection H as H. exact H.
    + split; [lia|].
      destruct (Z.eqb_spec (uchar c1) 0) as [E1|E1];
        destruct (Z.eqb_spec (uchar c2) 0) as [E2|E2];
        try discriminate; try lia.
      intros H. injection H as H _. subst c2. contradiction.
Qed.

(** The test [strcmp(method, literal) == 0] of the dispatcher, for a
    literal without a NUL byte. *)
Lemma method_test (method_call : FlMethodCall) (literal : string) :
  c_str literal = literal ->
  (strcmp (fl_method_call_get_name method_call) literal =? 0) = true
  <-> fl_method_call_get_name method_call = literal.
Proof.
  intros Hl. rewrite Z.eqb_eq, strcmp_zero_iff.
  unfold fl_method_call_get_name. rewrite c_str_idempotent, Hl. tauto.
Qed.

Lemma method_test_false (method_call : FlMethodCall) (literal : string) :
  c_str literal = literal ->
  fl_method_call_get_name method_call <> literal ->
  (strcmp (fl_method_call_get_name method_call) literal =? 0) = false.
Proof.
  intros Hl Hn. apply not_true_is_false. intros H.
  apply Hn. apply (method_test _ _ Hl). exact H.
Qed.

Lemma printf_linux (buf : string) :
  g_strdup_printf "Linux %s" [buf] = "Linux " ++ c_str buf.
Proof. simpl. rewrite append_empty_r. reflexivity. Qed.

(** ** The dispatcher, branch by branch *)

Section Branches.

Variable os : OS.
Variable self : AlouetteLibTtsPlugin.
Variable method_call : FlMethodCall.
Variable w : World.

Lemma build_isEdgeTTSAvailable :
  fl_method_call_get_name method_call = "isEdgeTTSAvailable" ->
  build_response os self method_call w =
  (FlMethodSuccessResponse (FlBool (os_system os edge_tts_probe =? 0)),
   mkWorld (os_calls w ++ [CallSystem edge_tts_probe]) (responded w)).
Proof.
  unfold build_response. intros ->. reflexivity.
Qed.

Lemma build_getAvailableTTSEngines :
  fl_method_call_get_name method_call = "getAvailableTTSEngines" ->
  build_response os self method_call w =
  (FlMethodSuccessResponse
     (if os_system os edge_tts_probe =? 0 then FlList [FlString "edge-tts"] else FlList []),
   mkWorld (os_calls w ++ [CallSystem edge_tts_probe]) (responded w)).
Proof.
  unfold build_response. intros ->.
  cbv [bind system ret]. cbn [strcmp uchar]. simpl.
  unfold edge_tts_probe. destruct (os_system os _ =? 0); reflexivity.
Qed.

Lemma build_getPlatformVersion :
  fl_method_call_get_name method_call = "getPlatformVersion" ->
  build_response os self method_call w =
  (FlMethodSuccessResponse
     (FlString ("Linux " ++ c_str (release (snd (os_uname os utsname_zero))))),
   mkWorld (os_calls w ++ [CallUname]) (responded w)).
Proof.
  unfold build_response. intros ->.
  change (strcmp "getPlatformVersion" "isEdgeTTSAvailable" =? 0) with false.
  change (strcmp "getPlatformVersion" "getAvailableTTSEngines" =? 0) with false.
  change (strcmp "getPlatformVersion" "getPlatformVersion" =? 0) with true.
  cbv [bind uname ret fl_method_success_response_new fl_value_new_string].
  rewrite printf_linux, c_str_app by reflexivity.
  rewrite c_str_idempotent. reflexivity.
Qed.

Lemma build_other :
  fl_method_call_get_name method_call <> "isEdgeTTSAvailable" ->
  fl_method_call_get_name method_call <> "getAvailableTTSEngines" ->
  fl_method_call_get_name method_call <> "getPlatformVersion" ->
  build_response os self method_call w = (FlMethodNotImplementedResponse, w).
Proof.
  unfold build_response. intros H1 H2 H3.
  rewrite !method_test_false by (reflexivity || assumption).
  reflexivity.
Qed.

(** The handler hands over exactly the response it built. *)
Lemma handle_build :
  handle os self method_call w =
  mkWorld (os_calls (snd (build_response os self method_call w)))
          (responded (snd (build_response os self method_call w))
             ++ [(method_call, fst (build_response os self method_call w))]).
Proof.
  unfold handle, alouette_lib_tts_plugin_handle_method_call, bind.
  destruct (build_response os self method_call w) as [r w']. reflexivity.
Qed.

End Branches.

Local Open Scope list_scope.

(** The response built for a call depends neither on the plugin object nor
    on what happened before; building it leaves the channel alone. *)
Lemma build_response_frame (os : OS) (self : AlouetteLibTtsPlugin)
    (method_call : FlMethodCall) (w : World) :
  fst (build_response os self method_call w) = response_alone os method_call
  /\ responded (snd (build_response os self method_call w)) = responded w.
Proof.
  unfold response_alone.
  destruct (string_dec (fl_method_call_get_name method_call) "isEdgeTTSAvailable") as [E1|N1].
  { rewrite !build_isEdgeTTSAvailable by exact E1. split; reflexivity. }
  destruct (string_dec (fl_method_call_get_name method_call) "getAvailableTTSEngines") as [E2|N2].
  { rewrite !build_getAvailableTTSEngines by exact E2. split; reflexivity. }
  destruct (string_dec (fl_method_call_get_name method_call) "getPlatformVersion") as [E3|N3].
  { rewrite !build_getPlatformVersion by exact E3. split; reflexivity. }
  rewrite !build_other by assumption. split; reflexivity.
Qed.

Lemma handle_responded (os : OS) (self : AlouetteLibTtsPlugin)
    (method_call : FlMethodCall) (w : World) :
  responded (handle os self method_call w) =
  responded w ++ [(method_call, response_alone os method_call)].
Proof.
  rewrite handle_build. simpl.
  destruct (build_response_frame os self method_call w) as [-> ->].
  reflexivity.
Qed.

Lemma deliver_cons (os : OS) (plugin : AlouetteLibTtsPlugin)
    (method_call : FlMethodCall) (rest : list FlMethodCall) (w : World) :
  deliver os plugin (method_call :: rest) w =
  deliver os plugin rest (handle os plugin method_call w).
Proof.
  unfold handle. simpl. unfold method_call_cb, bind at 1.
  destruct (alouette_lib_tts_plugin_handle_method_call os plugin method_call w).
  reflexivity.
Qed.

(** ** The dispatcher's contract *)

(** C1. A call named [isEdgeTTSAvailable] runs the probe [which edge-tts]
    once and gets exactly one response, a success whose payload is the
    boolean "the probe's exit status is 0": [true] when the tool is found,
    [false] for any other status. *)
Theorem isEdgeTTSAvailable_reports_probe (os : OS) (self : AlouetteLibTtsPlugin)
    (method_call : FlMethodCall) (w : World) :
  fl_method_call_get_name method_call = "isEdgeTTSAvailable" ->
  responded (handle os self method_call w) =
    responded w ++
    [(method_call, FlMethodSuccessResponse (FlBool (os_system os edge_tts_probe =? 0)))]
  /\ os_calls (handle os self method_call w) = os_calls w ++ [CallSystem edge_tts_probe].
Proof.
  intros H. rewrite handle_build, build_isEdgeTTSAvailable by exact H.
  split; reflexivity.
Qed.

Lemma isEdgeTTSAvailable_reports_probe_witness :
  fl_method_call_get_name call_isEdgeTTSAvailable = "isEdgeTTSAvailable"
  /\ responded (handle os_with_edge_tts plugin0 call_isEdgeTTSAvailable world0) =
       [(call_isEdgeTTSAvailable, FlMethodSuccessResponse (FlBool true))]
  /\ responded (handle os_without_edge_tts plugin0 call_isEdgeTTSAvailable world0) =
       [(call_isEdgeTTSAvailable, FlMethodSuccessResponse (FlBool false))].
Proof.
  split; [reflexivity|]. split.
  - apply (isEdgeTTSAvailable_reports_probe os_with_edge_tts plugin0
             call_isEdgeTTSAvailable world0). reflexivity.
  - apply (isEdgeTTSAvailable_reports_probe os_without_edge_tts plugin0
             call_isEdgeTTSAvailable world0). reflexivity.
Defined.

(** C2. A call named [getAvailableTTSEngines] gets exactly one response, a
    success whose payload is the list holding the one string [edge-tts]
    when the probe's exit status is 0 and the empty list otherwise; these
    are the only two payloads. *)
Theorem getAvailableTTSEngines_lists_edge_tts (os : OS) (self : AlouetteLibTtsPlugin)
    (method_call : FlMethodCall) (w : World) :
  fl_method_call_get_name method_call = "getAvailableTTSEngines" ->
  responded (handle os self method_call w) =
    responded w ++
    [(method_call,
      FlMethodSuccessResponse
        (if os_system os edge_tts_probe =? 0
         then FlList [FlString "edge-tts"] else FlList []))].
Proof.
  intros H. rewrite handle_build, build_getAvailableTTSEngines by exact H.
  reflexivity.
Qed.

Lemma getAvailableTTSEngines_lists_edge_tts_witness :
  fl_method_call_get_name call_getAvailableTTSEngines = "getAvailableTTSEngines"
  /\ responded (handle os_with_edge_tts plugin0 call_getAvailableTTSEngines world0) =
       [(call_getAvailableTTSEngines,
         FlMethodSuccessResponse (FlList [FlString "edge-tts"]))]
  /\ responded (handle os_without_edge_tts plugin0 call_getAvailableTTSEngines world0) =
       [(call_getAvailableTTSEngines, FlMethodSuccessResponse (FlList []))].
Proof.
  split; [reflexivity|]. split.
  - apply (getAvailableTTSEngines_lists_edge_tts os_with_edge_tts plugin0
             call_getAvailableTTSEngines world0). reflexivity.
  - apply (getAvailableTTSEngines_lists_edge_tts os_without_edge_tts plugin0
             call_getAvailableTTSEngines world0). reflexivity.
Defined.

(** C3, as the specification states it, fails: on a kernel that reports the
    name [FreeBSD] and the release [14.1-RELEASE] the payload is
    [Linux 14.1-RELEASE], not [FreeBSD 14.1-RELEASE]. *)
Lemma getPlatformVersion_kernel_name_counterexample :
  fl_method_call_get_name call_getPlatformVersion = "getPlatformVersion"
  /\ reported_platform_version os_freebsd = "FreeBSD 14.1-RELEASE"
  /\ responded (handle os_freebsd plugin0 call_getPlatformVersion world0) =
       [(call_getPlatformVersion,
         FlMethodSuccessResponse (FlString "Linux 14.1-RELEASE"))]
  /\ responded (handle os_freebsd plugin0 call_getPlatformVersion world0) <>
       [(call_getPlatformVersion,
         FlMethodSuccessResponse (FlString (reported_platform_version os_freebsd)))].
Proof.
  repeat split; try reflexivity.
  vm_compute. intros H. discriminate H.
Qed.

(** C3, amended. A call named [getPlatformVersion] queries [uname] once, on
    a zeroed buffer, and gets exactly one response, a success whose payload
    is the fixed label [Linux], a space, and the release string the query
    left in the buffer, verbatim; the kernel name the query reported is not
    read. *)
Theorem getPlatformVersion_linux_and_release (os : OS) (self : AlouetteLibTtsPlugin)
    (method_call : FlMethodCall) (w : World) :
  fl_method_call_get_name method_call = "getPlatformVersion" ->
  responded (handle os self method_call w) =
    responded w ++
    [(method_call,
      FlMethodSuccessResponse
        (FlString ("Linux " ++ c_str (release (snd (os_uname os utsname_zero))))%string))]
  /\ os_calls (handle os self method_call w) = os_calls w ++ [CallUname].
Proof.
  intros H. rewrite handle_build, build_getPlatformVersion by exact H.
  split; reflexivity.
Qed.

Lemma getPlatformVersion_linux_and_release_witness :
  fl_method_call_get_name call_getPlatformVersion = "getPlatformVersion"
  /\ responded (handle os_with_edge_tts plugin0 call_getPlatformVersion world0) =
       [(call_getPlatformVersion,
         FlMethodSuccessResponse (FlString "Linux 6.8.0-45-generic"))].
Proof.
  split; [reflexivity|].
  apply (getPlatformVersion_linux_and_release os_with_edge_tts plugin0
           call_getPlatformVersion world0). reflexivity.
Defined.

(** C4. A call whose name is none of the three recognised ones gets exactly
    one response, "not implemented", and the operating system is not
    asked anything.  The dispatcher is a total function: there is no input
    on which it gives no response. *)
Theorem unknown_method_not_implemented (os : OS) (self : AlouetteLibTtsPlugin)
    (method_call : FlMethodCall) (w : World) :
  fl_method_call_get_name method_call <> "isEdgeTTSAvailable" ->
  fl_method_call_get_name method_call <> "getAvailableTTSEngines" ->
  fl_method_call_get_name method_call <> "getPlatformVersion" ->
  responded (handle os self method_call w) =
    responded w ++ [(method_call, FlMethodNotImplementedResponse)]
  /\ os_calls (handle os self method_call w) = os_calls w.
Proof.
  intros H1 H2 H3. rewrite handle_build, build_other by assumption.
  split; reflexivity.
Qed.

Lemma unknown_method_not_implemented_witness :
  responded (handle os_with_edge_tts plugin0 call_bogus world0) =
    [(call_bogus, FlMethodNotImplementedResponse)].
Proof.
  apply (unknown_method_not_implemented os_with_edge_tts plugin0 call_bogus world0);
    intros H; discriminate H.
Defined.

(** C5. Whatever the probe returns, [isEdgeTTSAvailable] and
    [getAvailableTTSEngines] get a success response; when the probe's
    status is not 0 (the tool is absent, the shell could not run it, no
    child process could be created) the payload is [false], respectively
    the empty list. *)
Theorem probe_outcome_never_an_error (os : OS) (self : AlouetteLibTtsPlugin)
    (method_call : FlMethodCall) (w : World) :
  fl_method_call_get_name method_call = "isEdgeTTSAvailable"
  \/ fl_method_call_get_name method_call = "getAvailableTTSEngines" ->
  exists payload : FlValue,
    responded (handle os self method_call w) =
      responded w ++ [(method_call, FlMethodSuccessResponse payload)]
    /\ (os_system os edge_tts_probe <> 0 ->
        (fl_method_call_get_name method_call = "isEdgeTTSAvailable" ->
         payload = FlBool false)
        /\ (fl_method_call_get_name method_call = "getAvailableTTSEngines" ->
            payload = FlList [])).
Proof.
  intros [H|H]; rewrite handle_build.
  - rewrite build_isEdgeTTSAvailable by exact H.
    eexists. split; [reflexivity|].
    intros Hs. apply Z.eqb_neq in Hs. rewrite Hs. split; [reflexivity|].
    rewrite H. intros E. discriminate E.
  - rewrite build_getAvailableTTSEngines by exact H.
    eexists. split; [reflexivity|].
    intros Hs. apply Z.eqb_neq in Hs. rewrite Hs. split; [|reflexivity].
    rewrite H. intros E. discriminate E.
Qed.

Lemma probe_outcome_never_an_error_witness :
  os_system os_failing edge_tts_probe <> 0
  /\ (exists payload,
        responded (handle os_failing plugin0 call_isEdgeTTSAvailable world0) =
          [(call_isEdgeTTSAvailable, FlMethodSuccessResponse payload)]
        /\ payload = FlBool false)
  /\ (exists payload,
        responded (handle os_failing plugin0 call_getAvailableTTSEngines world0) =
          [(call_getAvailableTTSEngines, FlMethodSuccessResponse payload)]
        /\ payload = FlList []).
Proof.
  assert (Hs : os_system os_failing edge_tts_probe <> 0) by (intros H; discriminate H).
  split; [exact Hs|]. split.
  - destruct (probe_outcome_never_an_error os_failing plugin0
                call_isEdgeTTSAvailable world0 (or_introl eq_refl)) as [p [Hr Hp]].
    exists p. split; [exact Hr|]. exact (proj1 (Hp Hs) eq_refl).
  - destruct (probe_outcome_never_an_error os_failing plugin0
                call_getAvailableTTSEngines world0 (or_intror eq_refl)) as [p [Hr Hp]].
    exists p. split; [exact Hr|]. exact (proj2 (Hp Hs) eq_refl).
Defined.

(** C6. Under one environment, [isEdgeTTSAvailable] and
    [getAvailableTTSEngines] run the same probe command, and the list the
    second returns is non-empty exactly when the first returns [true]. *)
Theorem engines_nonempty_iff_available (os : OS)
    (self1 self2 : AlouetteLibTtsPlugin) (call1 call2 : FlMethodCall)
    (w1 w2 : World) :
  fl_method_call_get_name call1 = "isEdgeTTSAvailable" ->
  fl_method_call_get_name call2 = "getAvailableTTSEngines" ->
  exists (available : bool) (engines : list FlValue) (probe : string),
    responded (handle os self1 call1 w1) =
      responded w1 ++ [(call1, FlMethodSuccessResponse (FlBool available))]
    /\ responded (handle os self2 call2 w2) =
         responded w2 ++ [(call2, FlMethodSuccessResponse (FlList engines))]
    /\ os_calls (handle os self1 call1 w1) = os_calls w1 ++ [CallSystem probe]
    /\ os_calls (handle os self2 call2 w2) = os_calls w2 ++ [CallSystem probe]
    /\ (engines <> [] <-> available = true).
Proof.
  intros H1 H2.
  rewrite !handle_build, build_isEdgeTTSAvailable, build_getAvailableTTSEngines
    by assumption.
  exists (os_system os edge_tts_probe =? 0).
  destruct (os_system os edge_tts_probe =? 0).
  - exists [FlString "edge-tts"], edge_tts_probe.
    do 4 (split; [reflexivity|]).
    split; [reflexivity | intros _ E; discriminate E].
  - exists [], edge_tts_probe.
    do 4 (split; [reflexivity|]).
    split; [intros E; contradiction E; reflexivity | intros E; discriminate E].
Qed.

Lemma engines_nonempty_iff_available_witness :
  exists (available : bool) (engines : list FlValue) (probe : string),
    responded (handle os_with_edge_tts plugin0 call_isEdgeTTSAvailable world0) =
      [(call_isEdgeTTSAvailable, FlMethodSuccessResponse (FlBool available))]
    /\ responded (handle os_with_edge_tts plugin0 call_getAvailableTTSEngines world0) =
         [(call_getAvailableTTSEngines, FlMethodSuccessResponse (FlList engines))]
    /\ os_calls (handle os_with_edge_tts plugin0 call_isEdgeTTSAvailable world0) =
         [CallSystem probe]
    /\ os_calls (handle os_with_edge_tts plugin0 call_getAvailableTTSEngines world0) =
         [CallSystem probe]
    /\ (engines <> [] <-> available = true).
Proof.
  apply (engines_nonempty_iff_available os_with_edge_tts plugin0 plugin0
           call_isEdgeTTSAvailable call_getAvailableTTSEngines world0 world0);
    reflexivity.
Defined.

(** C7. Every call of a sequence delivered under one environment gets
    exactly the response it gets when made alone on a fresh plugin: the
    responses do not depend on the calls made before, on their order, or on
    the plugin object. *)
Theorem deliver_answers_each_call_as_alone (os : OS)
    (plugin : AlouetteLibTtsPlugin) (calls : list FlMethodCall) (w : World) :
  (forall method_call : FlMethodCall,
      responded (handle os plugin0 method_call world0) =
        [(method_call, response_alone os method_call)])
  /\ responded (snd (deliver os plugin calls w)) =
       responded w ++ map (fun method_call => (method_call, response_alone os method_call)) calls.
Proof.
  split.
  - intros method_call. apply (handle_responded os plugin0 method_call world0).
  - revert w. induction calls as [|method_call rest IH]; intros w.
    + simpl. rewrite app_nil_r. reflexivity.
    + rewrite deliver_cons, IH, handle_responded, <- app_assoc. reflexivity.
Qed.

(** C8. The payload has the type declared for the call's name: a boolean
    for [isEdgeTTSAvailable], a list of strings for
    [getAvailableTTSEngines], a string for [getPlatformVersion]. *)
Theorem payload_type_matches_name (os : OS) (self : AlouetteLibTtsPlugin)
    (method_call : FlMethodCall) (w : World) :
  (fl_method_call_get_name method_call = "isEdgeTTSAvailable" ->
   exists payload,
     responded (handle os self method_call w) =
       responded w ++ [(method_call, FlMethodSuccessResponse payload)]
     /\ fl_value_get_type payload = FL_VALUE_TYPE_BOOL)
  /\ (fl_method_call_get_name method_call = "getAvailableTTSEngines" ->
      exists payload,
        responded (handle os self method_call w) =
          responded w ++ [(method_call, FlMethodSuccessResponse payload)]
        /\ fl_value_get_type payload = FL_VALUE_TYPE_LIST
        /\ is_fl_string_list payload = true)
  /\ (fl_method_call_get_name method_call = "getPlatformVersion" ->
      exists payload,
        responded (handle os self method_call w) =
          responded w ++ [(method_call, FlMethodSuccessResponse payload)]
        /\ fl_value_get_type payload = FL_VALUE_TYPE_STRING).
Proof.
  repeat split; intros H; rewrite handle_build.
  - rewrite build_isEdgeTTSAvailable by exact H.
    eexists. split; reflexivity.
  - rewrite build_getAvailableTTSEngines by exact H.
    eexists. split; [reflexivity|].
    destruct (os_system os edge_tts_probe =? 0); split; reflexivity.
  - rewrite build_getPlatformVersion by exact H.
    eexists. split; reflexivity.
Qed.

Lemma payload_type_matches_name_witness :
  (exists payload,
      responded (handle os_with_edge_tts plugin0 call_isEdgeTTSAvailable world0) =
        [(call_isEdgeTTSAvailable, FlMethodSuccessResponse payload)]
      /\ fl_value_get_type payload = FL_VALUE_TYPE_BOOL)
  /\ (exists payload,
        responded (handle os_with_edge_tts plugin0 call_getAvailableTTSEngines world0) =
          [(call_getAvailableTTSEngines, FlMethodSuccessResponse payload)]
        /\ fl_value_get_type payload = FL_VALUE_TYPE_LIST
        /\ is_fl_string_list payload = true)
  /\ (exists payload,
        responded (handle os_with_edge_tts plugin0 call_getPlatformVersion world0) =
          [(call_getPlatformVersion, FlMethodSuccessResponse payload)]
        /\ fl_value_get_type payload = FL_VALUE_TYPE_STRING).
Proof.
  split; [|split].
  - apply (proj1 (payload_type_matches_name os_with_edge_tts plugin0
                    call_isEdgeTTSAvailable world0)). reflexivity.
  - apply (proj1 (proj2 (payload_type_matches_name os_with_edge_tts plugin0
                           call_getAvailableTTSEngines world0))). reflexivity.
  - apply (proj2 (proj2 (payload_type_matches_name os_with_edge_tts plugin0
                           call_getPlatformVersion world0))). reflexivity.
Defined.

(** C9. Two calls with the same name get the same response under one
    environment, whatever their argument payloads, and each call gets
    exactly one response. *)
Theorem response_ignores_arguments (os : OS)
    (self1 self2 : AlouetteLibTtsPlugin) (call1 call2 : FlMethodCall)
    (w1 w2 : World) :
  fl_method_call_get_name call1 = fl_method_call_get_name call2 ->
  exists response : FlMethodResponse,
    responded (handle os self1 call1 w1) = responded w1 ++ [(call1, response)]
    /\ responded (handle os self2 call2 w2) = responded w2 ++ [(call2, response)].
Proof.
  intros H. exists (response_alone os call1).
  rewrite !handle_responded. split; [reflexivity|].
  do 3 f_equal. unfold response_alone, build_response.
  rewrite H. reflexivity.
Qed.

Lemma response_ignores_arguments_witness :
  exists response : FlMethodResponse,
    responded (handle os_with_edge_tts plugin0 call_getAvailableTTSEngines world0) =
      [(call_getAvailableTTSEngines, response)]
    /\ responded (handle os_with_edge_tts plugin0 call_getAvailableTTSEngines_args world0) =
         [(call_getAvailableTTSEngines_args, response)].
Proof.
  apply (response_ignores_arguments os_with_edge_tts plugin0 plugin0
           call_getAvailableTTSEngines call_getAvailableTTSEngines_args
           world0 world0).
  reflexivity.
Defined.

(** C10. [getPlatformVersion] does not read what [uname] returns: two
    environments whose queries leave the same buffer get the same
    response, whatever the two return values; and when the query fails and
    leaves the zeroed buffer as it was, the response is still a success,
    whose payload is the label [Linux] followed by a space and nothing
    else. *)
Theorem getPlatformVersion_ignores_uname_status (os os' : OS)
    (self : AlouetteLibTtsPlugin) (method_call : FlMethodCall) (w : World) :
  fl_method_call_get_name method_call = "getPlatformVersion" ->
  (snd (os_uname os utsname_zero) = snd (os_uname os' utsname_zero) ->
   response_alone os method_call = response_alone os' method_call)
  /\ (fst (os_uname os utsname_zero) <> 0 ->
      snd (os_uname os utsname_zero) = utsname_zero ->
      responded (handle os self method_call w) =
        responded w ++ [(method_call, FlMethodSuccessResponse (FlString "Linux "))]).
Proof.
  intros H. split.
  - intros E. unfold response_alone.
    rewrite !build_getPlatformVersion by exact H. rewrite E. reflexivity.
  - intros _ E. rewrite handle_build, build_getPlatformVersion by exact H.
    rewrite E. reflexivity.
Qed.

Lemma getPlatformVersion_ignores_uname_status_witness :
  fl_method_call_get_name call_getPlatformVersion = "getPlatformVersion"
  /\ fst (os_uname os_failing utsname_zero) <> 0
  /\ snd (os_uname os_failing utsname_zero) = utsname_zero
  /\ response_alone os_failing call_getPlatformVersion =
       response_alone os_uname_unchecked call_getPlatformVersion
  /\ responded (handle os_failing plugin0 call_getPlatformVersion world0) =
       [(call_getPlatformVersion, FlMethodSuccessResponse (FlString "Linux "))].
Proof.
  assert (Hf : fst (os_uname os_failing utsname_zero) <> 0)
    by (intros H; discriminate H).
  split; [reflexivity|]. split; [exact Hf|]. split; [reflexivity|].
  destruct (getPlatformVersion_ignores_uname_status os_failing os_uname_unchecked
              plugin0 call_getPlatformVersion world0 eq_refl) as [Hsame Hfail].
  split.
  - apply Hsame. reflexivity.
  - apply Hfail; [exact Hf | reflexivity].
Defined.

(** ** Sequences of calls and what the responses depend on *)


(** The calls to the operating system a single call adds. *)
Lemma handle_os_calls (os : OS) (self : AlouetteLibTtsPlugin)
    (method_call : FlMethodCall) (w : World) :
  os_calls (handle os self method_call w) = os_calls w ++ footprint method_call.
Proof.
  rewrite handle_build. unfold footprint, named, probe_methods. cbn [os_calls].
  destruct (string_dec (fl_method_call_get_name method_call) "isEdgeTTSAvailable") as [E1|N1].
  { rewrite build_isEdgeTTSAvailable by exact E1. rewrite E1. reflexivity. }
  destruct (string_dec (fl_method_call_get_name method_call) "getAvailableTTSEngines") as [E2|N2].
  { rewrite build_getAvailableTTSEngines by exact E2. rewrite E2. reflexivity. }
  destruct (string_dec (fl_method_call_get_name method_call) "getPlatformVersion") as [E3|N3].
  { rewrite build_getPlatformVersion by exact E3. rewrite E3. reflexivity. }
  rewrite build_other by assumption.
  apply String.eqb_neq in N1, N2, N3. cbn [existsb].
  rewrite N1, N2, N3. cbn. rewrite app_nil_r. reflexivity.
Qed.

Lemma deliver_os_calls (os : OS) (plugin : AlouetteLibTtsPlugin)
    (calls : list FlMethodCall) (w : World) :
  os_calls (snd (deliver os plugin calls w)) = os_calls w ++ flat_map footprint calls.
Proof.
  revert w. induction calls as [|method_call rest IH]; intros w.
  - simpl. rewrite app_nil_r. reflexivity.
  - rewrite deliver_cons, IH, handle_os_calls, <- app_assoc. reflexivity.
Qed.

Lemma deliver_responded (os : OS) (plugin : AlouetteLibTtsPlugin)
    (calls : list FlMethodCall) (w : World) :
  responded (snd (deliver os plugin calls w)) =
  responded w ++ map (fun method_call => (method_call, response_alone os method_call)) calls.
Proof.
  revert w. induction calls as [|method_call rest IH]; intros w.
  - simpl. rewrite app_nil_r. reflexivity.
  - rewrite deliver_cons, IH, handle_responded, <- app_assoc. reflexivity.
Qed.

Lemma footprint_system_count (calls : list FlMethodCall) :
  List.length (filter is_system_call (flat_map footprint calls)) =
  List.length (filter (named probe_methods) calls).
Proof.
  induction calls as [|method_call rest IH]; [reflexivity|].
  cbn [flat_map filter]. rewrite filter_app, length_app, IH.
  unfold footprint.
  destruct (named probe_methods method_call); [reflexivity|].
  destruct (named ["getPlatformVersion"] method_call); reflexivity.
Qed.

Lemma named_probe_not_version (method_call : FlMethodCall) :
  named ["getPlatformVersion"] method_call = true ->
  named probe_methods method_call = false.
Proof.
  unfold named. cbn [existsb probe_methods]. rewrite !orb_false_r.
  intros H. apply String.eqb_eq in H. rewrite H. reflexivity.
Qed.

Lemma footprint_uname_count (calls : list FlMethodCall) :
  List.length (filter is_uname_call (flat_map footprint calls)) =
  List.length (filter (named ["getPlatformVersion"]) calls).
Proof.
  induction calls as [|method_call rest IH]; [reflexivity|].
  cbn [flat_map filter]. rewrite filter_app, length_app, IH.
  unfold footprint.
  destruct (named ["getPlatformVersion"] method_call) eqn:E.
  - rewrite (named_probe_not_version _ E). reflexivity.
  - destruct (named probe_methods method_call); reflexivity.
Qed.

(** What the response to a call reads of the environment. *)
Lemma response_alone_reads (os1 os2 : OS) (method_call : FlMethodCall) :
  (os_system os1 edge_tts_probe = 0 <-> os_system os2 edge_tts_probe = 0) ->
  c_str (release (snd (os_uname os1 utsname_zero))) =
    c_str (release (snd (os_uname os2 utsname_zero))) ->
  response_alone os1 method_call = response_alone os2 method_call.
Proof.
  intros Hs Hr. unfold response_alone.
  assert (Hb : (os_system os1 edge_tts_probe =? 0) = (os_system os2 edge_tts_probe =? 0)).
  { destruct (Z.eqb_spec (os_system os1 edge_tts_probe) 0) as [E|E];
      destruct (Z.eqb_spec (os_system os2 edge_tts_probe) 0) as [E'|E'];
      try reflexivity; tauto. }
  destruct (string_dec (fl_method_call_get_name method_call) "isEdgeTTSAvailable") as [E1|N1].
  { rewrite !build_isEdgeTTSAvailable by exact E1. cbn [fst]. rewrite Hb. reflexivity. }
  destruct (string_dec (fl_method_call_get_name method_call) "getAvailableTTSEngines") as [E2|N2].
  { rewrite !build_getAvailableTTSEngines by exact E2. cbn [fst]. rewrite Hb. reflexivity. }
  destruct (string_dec (fl_method_call_get_name method_call) "getPlatformVersion") as [E3|N3].
  { rewrite !build_getPlatformVersion by exact E3. cbn [fst]. rewrite Hr. reflexivity. }
  rewrite !build_other by assumption. reflexivity.
Qed.

(** X1. Every call gets exactly one response, and it is never an error
    response: it is "not implemented" exactly when the name is none of the
    three recognised names, and a success exactly when it is one of them,
    whatever the operating system returns. *)
Theorem dispatcher_outcomes (os : OS) (self : AlouetteLibTtsPlugin)
    (method_call : FlMethodCall) (w : World) :
  exists response : FlMethodResponse,
    responded (handle os self method_call w) = responded w ++ [(method_call, response)]
    /\ (response = FlMethodNotImplementedResponse
        <-> named recognised_methods method_call = false)
    /\ ((exists payload, response = FlMethodSuccessResponse payload)
        <-> named recognised_methods method_call = true)
    /\ (forall code message details,
          response <> FlMethodErrorResponse code message details).
Proof.
  exists (response_alone os method_call).
  split; [apply handle_responded|].
  unfold response_alone, named, recognised_methods.
  destruct (string_dec (fl_method_call_get_name method_call) "isEdgeTTSAvailable") as [E1|N1].
  { rewrite build_isEdgeTTSAvailable by exact E1. rewrite E1. cbn.
    repeat split; try discriminate; eauto. }
  destruct (string_dec (fl_method_call_get_name method_call) "getAvailableTTSEngines") as [E2|N2].
  { rewrite build_getAvailableTTSEngines by exact E2. rewrite E2. cbn.
    repeat split; try discriminate; eauto. }
  destruct (string_dec (fl_method_call_get_name method_call) "getPlatformVersion") as [E3|N3].
  { rewrite build_getPlatformVersion by exact E3. rewrite E3. cbn.
    repeat split; try discriminate; eauto. }
  rewrite build_other by assumption.
  apply String.eqb_neq in N1, N2, N3. cbn [existsb fst].
  rewrite N1, N2, N3. cbn.
  repeat split; try discriminate.
  intros [payload E]. discriminate E.
Qed.

(** X2. Every command line handed to [system] while a sequence of calls is
    served is the fixed probe command: no name and no argument payload of
    a call ever reaches a shell. *)
Theorem only_the_probe_command_is_run (os : OS) (plugin : AlouetteLibTtsPlugin)
    (calls : list FlMethodCall) (w : World) (command : string) :
  In (CallSystem command) (os_calls (snd (deliver os plugin calls w))) ->
  In (CallSystem command) (os_calls w) \/ command = edge_tts_probe.
Proof.
  rewrite deliver_os_calls. intros H. apply in_app_or in H.
  destruct H as [H|H]; [left; exact H|right].
  apply in_flat_map in H. destruct H as [method_call [_ H]].
  unfold footprint in H.
  destruct (named probe_methods method_call).
  - destruct H as [H|[]]. injection H as H. symmetry. exact H.
  - destruct (named ["getPlatformVersion"] method_call).
    + destruct H as [H|[]]. discriminate H.
    + destruct H.
Qed.

Lemma only_the_probe_command_is_run_witness :
  In (CallSystem edge_tts_probe)
     (os_calls (snd (deliver os_with_edge_tts plugin0
                       [call_bogus; call_getAvailableTTSEngines_args;
                        call_getPlatformVersion] world0)))
  /\ (In (CallSystem edge_tts_probe) (os_calls world0)
      \/ edge_tts_probe = edge_tts_probe).
Proof.
  assert (H : In (CallSystem edge_tts_probe)
                 (os_calls (snd (deliver os_with_edge_tts plugin0
                                   [call_bogus; call_getAvailableTTSEngines_args;
                                    call_getPlatformVersion] world0))))
    by (left; reflexivity).
  split; [exact H|].
  exact (only_the_probe_command_is_run os_with_edge_tts plugin0 _ world0
           edge_tts_probe H).
Defined.

(** X3. Nothing is cached or batched: served in sequence, each call named
    [isEdgeTTSAvailable] or [getAvailableTTSEngines] runs the probe once
    more, each call named [getPlatformVersion] queries [uname] once more,
    and any other call asks the operating system nothing; the calls to
    the operating system happen in the order of the method calls. *)
Theorem every_call_asks_the_os_again (os : OS) (plugin : AlouetteLibTtsPlugin)
    (calls : list FlMethodCall) (w : World) :
  os_calls (snd (deliver os plugin calls w)) = os_calls w ++ flat_map footprint calls
  /\ List.length (filter is_system_call (os_calls (snd (deliver os plugin calls w)))) =
       (List.length (filter is_system_call (os_calls w))
        + List.length (filter (named probe_methods) calls))%nat
  /\ List.length (filter is_uname_call (os_calls (snd (deliver os plugin calls w)))) =
       (List.length (filter is_uname_call (os_calls w))
        + List.length (filter (named ["getPlatformVersion"]) calls))%nat.
Proof.
  rewrite deliver_os_calls, !filter_app, !length_app.
  rewrite footprint_system_count, footprint_uname_count.
  repeat split; reflexivity.
Qed.

(** X4. The response to a call reads two things of the environment only:
    whether the probe's status is 0, and the C string in the release field
    that [uname] leaves.  Two environments that agree on these two give
    every call the same response, whatever else differs (the non-zero
    status, the return value of [uname], the other fields, the bytes after
    the terminator). *)
Theorem response_reads_probe_zero_and_release (os1 os2 : OS)
    (self1 self2 : AlouetteLibTtsPlugin) (method_call : FlMethodCall) (w : World) :
  (os_system os1 edge_tts_probe = 0 <-> os_system os2 edge_tts_probe = 0) ->
  c_str (release (snd (os_uname os1 utsname_zero))) =
    c_str (release (snd (os_uname os2 utsname_zero))) ->
  responded (handle os1 self1 method_call w) = responded (handle os2 self2 method_call w).
Proof.
  intros Hs Hr. rewrite !handle_responded.
  rewrite (response_alone_reads os1 os2 method_call Hs Hr). reflexivity.
Qed.

Lemma response_reads_probe_zero_and_release_witness :
  (os_system os_without_edge_tts edge_tts_probe = 0
   <-> os_system os_other_host edge_tts_probe = 0)
  /\ c_str (release (snd (os_uname os_without_edge_tts utsname_zero))) =
       c_str (release (snd (os_uname os_other_host utsname_zero)))
  /\ responded (handle os_without_edge_tts plugin0 call_getPlatformVersion world0) =
       responded (handle os_other_host plugin0 call_getPlatformVersion world0).
Proof.
  assert (Hs : os_system os_without_edge_tts edge_tts_probe = 0
               <-> os_system os_other_host edge_tts_probe = 0)
    by (split; intros H; discriminate H).
  split; [exact Hs|]. split; [reflexivity|].
  exact (response_reads_probe_zero_and_release os_without_edge_tts os_other_host
           plugin0 plugin0 call_getPlatformVersion world0 Hs eq_refl).
Defined.



(** X6. Serving the same calls in another order gives the same responses
    in that other order: the pairs of call and response added to the
    channel are a permutation of each other. *)
Theorem reordering_calls_reorders_responses (os : OS)
    (plugin : AlouetteLibTtsPlugin) (calls calls' : list FlMethodCall) (w : World) :
  Permutation calls calls' ->
  exists added added' : list (FlMethodCall * FlMethodResponse),
    responded (snd (deliver os plugin calls w)) = responded w ++ added
    /\ responded (snd (deliver os plugin calls' w)) = responded w ++ added'
    /\ Permutation added added'.
Proof.
  intros H.
  exists (map (fun method_call => (method_call, response_alone os method_call)) calls),
         (map (fun method_call => (method_call, response_alone os method_call)) calls').
  rewrite !deliver_responded.
  split; [reflexivity|]. split; [reflexivity|].
  apply Permutation_map. exact H.
Qed.

Lemma reordering_calls_reorders_responses_witness :
  exists added added' : list (FlMethodCall * FlMethodResponse),
    responded (snd (deliver os_with_edge_tts plugin0
                      [call_isEdgeTTSAvailable; call_bogus] world0)) = added
    /\ responded (snd (deliver os_with_edge_tts plugin0
                         [call_bogus; call_isEdgeTTSAvailable] world0)) = added'
    /\ Permutation added added'.
Proof.
  exact (reordering_calls_reorders_responses os_with_edge_tts plugin0
           [call_isEdgeTTSAvailable; call_bogus]
           [call_bogus; call_isEdgeTTSAvailable] world0
           (perm_swap call_bogus call_isEdgeTTSAvailable [])).
Defined.
